(** * Gaze estimation engine: calibration agents and engine orchestration

    A shallow embedding of

    - [src/backend/calibration_agents.py]  ([CalibrationAgent], [InterpolationAgent]),
    - [src/gaze_estimation_engine.py] and [src/backend/vision_tracking_engine.py]
      ([GazeEstimationEngine] and [VisionTrackingEngine]; the bodies of the
      methods modelled here are the same in both files),

    together with the properties of the calibration subsystem that the
    specification states about them.

    Python objects are mutable, so every method is a computation in a state
    and exception monad over the object it is called on.  The float
    operations sit behind the interface [PyFloat]; its instance [binary64] is
    IEEE binary64, what CPython computes with. *)

From Stdlib Require Import List String Bool ZArith Lia Permutation.
From Stdlib Require Import Floats.
Import ListNotations.

Set Implicit Arguments.

(* ================================================================== *)
(** * A small model of the Python runtime *)

(** Exceptions, with what the [except] clauses of the code look at: the
    place of the class in the hierarchy.  The four builtin classes are the
    ones the modelled code raises by itself.  [Other] is any other class that
    derives from [Exception] (a builtin one such as [AttributeError], or one
    defined by a collaborator), identified by its name; [Subclass] is a class
    derived from the given one; [BaseOnly] is a class that derives from
    [BaseException] without deriving from [Exception] ([KeyboardInterrupt],
    [SystemExit], or a collaborator's own). *)
Inductive PyExc : Type :=
| ZeroDivisionError
| OverflowError
| ValueError
| TypeError
| Other (class_name : string)
| Subclass (class_name : string) (base : PyExc)
| BaseOnly (class_name : string).

(** The outcome of evaluating an expression: a value or a raised exception. *)
Inductive result (A : Type) : Type :=
| Ok (value : A)
| Raise (exc : PyExc).

Arguments Ok {A} value.
Arguments Raise {A} exc.

(** [except ZeroDivisionError]: the class itself and its subclasses. *)
Fixpoint is_ZeroDivisionError (e : PyExc) : bool :=
  match e with
  | ZeroDivisionError => true
  | Subclass _ base => is_ZeroDivisionError base
  | _ => false
  end.

(** [except Exception]: every class but those that derive from
    [BaseException] only. *)
Fixpoint is_Exception (e : PyExc) : bool :=
  match e with
  | BaseOnly _ => false
  | Subclass _ base => is_Exception base
  | _ => true
  end.

Definition rbind {A B : Type} (r : result A) (k : A -> result B) : result B :=
  match r with
  | Ok a => k a
  | Raise e => Raise e
  end.

Declare Scope py_scope.
Delimit Scope py_scope with py.

Notation "x <~ r ;; k" := (rbind r (fun x => k))
  (at level 100, r at next level, right associativity) : py_scope.

(** A list comprehension whose element expression can raise: elements are
    evaluated left to right and the first exception ends the comprehension. *)
Fixpoint comprehension {A B : Type} (f : A -> result B) (l : list A)
  : result (list B) :=
  match l with
  | [] => Ok []
  | a :: l' =>
      rbind (f a) (fun b =>
      rbind (comprehension f l') (fun bs => Ok (b :: bs)))
  end.

(** Computations over a mutable object of type [S].  What was written to the
    object before an exception was raised stays written. *)
Definition M (S A : Type) : Type := S -> result A * S.

Definition ret {S A : Type} (a : A) : M S A := fun s => (Ok a, s).

Definition raise {S A : Type} (e : PyExc) : M S A := fun s => (Raise e, s).

Definition bind {S A B : Type} (m : M S A) (k : A -> M S B) : M S B :=
  fun s =>
    match m s with
    | (Ok a, s') => k a s'
    | (Raise e, s') => (Raise e, s')
    end.

Definition gets {S A : Type} (f : S -> A) : M S A := fun s => (Ok (f s), s).

Definition modify {S : Type} (f : S -> S) : M S unit := fun s => (Ok tt, f s).

Definition lift {S A : Type} (r : result A) : M S A := fun s => (r, s).

(** [try: body / except <classes>: handler]. *)
Definition try_except {S A : Type}
    (body : M S A) (catches : PyExc -> bool) (handler : PyExc -> M S A) : M S A :=
  fun s =>
    match body s with
    | (Ok a, s') => (Ok a, s')
    | (Raise e, s') => if catches e then handler e s' else (Raise e, s')
    end.

Notation "x <- m ;; k" := (bind m (fun x => k))
  (at level 100, m at next level, right associativity) : py_scope.
Notation "' p <- m ;; k" := (bind m (fun x => match x with p => k end))
  (at level 100, p pattern, m at next level, right associativity) : py_scope.
Notation "m ;;; k" := (bind m (fun _ => k))
  (at level 100, right associativity) : py_scope.

Open Scope py_scope.

(* ================================================================== *)
(** * Python floats *)

(** The float operations the agents use.  [f_truediv], [f_pow2] and [f_sqrt]
    are [/], [** 2] and [math.sqrt], which can raise.  [f_zero] is the [0]
    that [sum] starts from, [f_one] the literal [1] and [f_1e_6] the literal
    [1e-6]. *)
Class PyFloat (F : Type) : Type := {
  f_zero : F;
  f_one : F;
  f_1e_6 : F;
  f_add : F -> F -> F;
  f_sub : F -> F -> F;
  f_mul : F -> F -> F;
  f_truediv : F -> F -> result F;
  f_pow2 : F -> result F;
  f_sqrt : F -> result F
}.

(** Dividing by the zero that [sum] returns for an empty sequence raises. *)
Class ZeroDivision (F : Type) `{PyFloat F} : Prop :=
  f_truediv_zero : forall x : F, f_truediv x f_zero = Raise ZeroDivisionError.

Arguments ZeroDivision F {_}.

(** The builtin [sum]: addition from the left, starting from [0].  (CPython
    up to 3.11 adds floats exactly so; later versions carry a compensation
    term along, which can change the last bits of a float sum.) *)
Definition sum {F : Type} `{PyFloat F} (xs : list F) : F :=
  fold_left f_add xs f_zero.

(** ** IEEE binary64, as in CPython *)

Module Binary64.

Open Scope float_scope.

(** [1e-6] is not a binary64 value; Python reads the literal as the nearest
    one, which is this. *)
Definition lit_1e_6 : float := 0x1.0c6f7a0b5ed8dp-20.

(** [x / y]: a zero divisor (of either sign) raises. *)
Definition truediv (x y : float) : result float :=
  if y =? 0 then Raise ZeroDivisionError else Ok (x / y).

(** [x ** 2], that is the C library's [pow(x, 2.0)], taken to be the
    correctly rounded square: a finite [x] whose square is out of range
    raises [OverflowError]; infinities and NaN go through. *)
Definition pow2 (x : float) : result float :=
  let y := x * x in
  if is_finite x && is_infinity y then Raise OverflowError else Ok y.

(** [math.sqrt(x)]: a negative argument is a domain error. *)
Definition math_sqrt (x : float) : result float :=
  if x <? 0 then Raise ValueError else Ok (sqrt x).

End Binary64.

#[export] Instance binary64 : PyFloat float := {
  f_zero := 0%float;
  f_one := 1%float;
  f_1e_6 := Binary64.lit_1e_6;
  f_add := PrimFloat.add;
  f_sub := PrimFloat.sub;
  f_mul := PrimFloat.mul;
  f_truediv := Binary64.truediv;
  f_pow2 := Binary64.pow2;
  f_sqrt := Binary64.math_sqrt
}.

(* ================================================================== *)
(** * The calibration map *)

(** Modelled from the spec: [src/backend/calibration_map.py] is not among the
    sources.  A calibration sample holds the six values that are recorded
    together (section 3 of the specification). *)
Record CalibrationSample (F : Type) : Type := {
  sample_monitor_x : F;
  sample_monitor_y : F;
  sample_head_x : F;
  sample_head_y : F;
  sample_theta : F;
  sample_phi : F
}.

(** Modelled from the spec: the class [CalibrationMap] of the missing
    [calibration_map.py].  An ordered collection of samples, in insertion
    order, nothing merged or removed; an empty map is valid. *)
Record CalibrationMap (F : Type) : Type := {
  samples : list (CalibrationSample F)
}.

Section CalibrationMapViews.

Context {F : Type}.

(** Modelled from the spec: the constructor [CalibrationMap()] of the missing
    [calibration_map.py]; a new map is empty. *)
Definition CalibrationMap_new : CalibrationMap F := {| samples := [] |}.

(** Modelled from the spec: the parallel views of the missing
    [calibration_map.py], read by the agent as attributes.  Index [i] of every
    view belongs to the [i]-th sample. *)
Definition monitor_x_values (m : CalibrationMap F) : list F :=
  map (@sample_monitor_x F) (samples m).

Definition monitor_y_values (m : CalibrationMap F) : list F :=
  map (@sample_monitor_y F) (samples m).

Definition head_x_values (m : CalibrationMap F) : list F :=
  map (@sample_head_x F) (samples m).

Definition head_y_values (m : CalibrationMap F) : list F :=
  map (@sample_head_y F) (samples m).

Definition theta_values (m : CalibrationMap F) : list F :=
  map (@sample_theta F) (samples m).

Definition phi_values (m : CalibrationMap F) : list F :=
  map (@sample_phi F) (samples m).

(** Modelled from the spec: [add_calibration_point] of the missing
    [calibration_map.py].  It appends one sample, growing all views in
    lock-step, and validates nothing. *)
Definition add_calibration_point
    (monitor_x monitor_y head_x head_y theta phi : F) (m : CalibrationMap F)
  : CalibrationMap F :=
  {| samples := samples m ++
       [ {| sample_monitor_x := monitor_x; sample_monitor_y := monitor_y;
            sample_head_x := head_x; sample_head_y := head_y;
            sample_theta := theta; sample_phi := phi |} ] |}.

End CalibrationMapViews.

(* ================================================================== *)
(** * Calibration agents ([src/backend/calibration_agents.py]) *)

(** What the engines call on [self.cal_agent].  A call passes its positional
    arguments as a list: binding them to the parameters of the method is part
    of the method, and a call with the wrong number of arguments raises
    [TypeError] before the body runs. *)
Class CalibrationAgent (F A : Type) : Type := {
  calibration_step : list F -> M A unit;
  calculate_point_of_regard : list F -> M A (F * F)
}.

Module InterpolationAgent.

Section Methods.

Context {F : Type} `{PyFloat F}.

(** The instance attributes. *)
Record self : Type := { calibration_map : CalibrationMap F }.

Definition initialize_cal_map : M self unit :=
  modify (fun _ => {| calibration_map := CalibrationMap_new |}).

(** [InterpolationAgent()]. *)
Definition __init__ : self := {| calibration_map := CalibrationMap_new |}.

Definition calibration_step (args : list F) : M self unit :=
  match args with
  | [monitor_x; monitor_y; head_x; head_y; theta; phi] =>
      modify (fun s =>
        {| calibration_map :=
             add_calibration_point monitor_x monitor_y head_x head_y theta phi
               (calibration_map s) |})
  | _ => raise TypeError
  end.

(** [position] is taken and not used, as in the source. *)
Definition _interpolate
    (position angle : F) (calibration_coordinates calibration_angles : list F)
  : result F :=
  let epsilon := f_1e_6 in
  distances <~
    comprehension
      (fun calib_angle =>
         sq <~ f_pow2 (f_sub angle calib_angle) ;; f_sqrt sq)
      calibration_angles ;;
  weights <~
    comprehension
      (fun distance => f_truediv f_one (f_add distance epsilon))
      distances ;;
  let numerator :=
    sum (map (fun '(w, coord) => f_mul w coord)
             (combine weights calibration_coordinates)) in
  f_truediv numerator (sum weights).

Definition calculate_point_of_regard (args : list F) : M self (F * F) :=
  match args with
  | [head_x; head_y; theta; phi] =>
      x_coords <- gets (fun s => monitor_x_values (calibration_map s)) ;;
      x_angles <- gets (fun s => theta_values (calibration_map s)) ;;
      x_screen <- lift (_interpolate head_x theta x_coords x_angles) ;;
      y_coords <- gets (fun s => monitor_y_values (calibration_map s)) ;;
      y_angles <- gets (fun s => phi_values (calibration_map s)) ;;
      y_screen <- lift (_interpolate head_y phi y_coords y_angles) ;;
      ret (x_screen, y_screen)
  | _ => raise TypeError
  end.

End Methods.

Arguments self F : clear implicits.

End InterpolationAgent.

#[export] Instance InterpolationAgent_CalibrationAgent
    {F : Type} `{PyFloat F} : CalibrationAgent F (InterpolationAgent.self F) := {
  calibration_step := InterpolationAgent.calibration_step;
  calculate_point_of_regard := InterpolationAgent.calculate_point_of_regard
}.

(* ================================================================== *)
(** * The engine ([src/gaze_estimation_engine.py],
      [src/backend/vision_tracking_engine.py]) *)

(** What the engine prints. *)
Inductive Printed (F Frame : Type) : Type :=
| step_failed (calibration_point : F * F * Frame) (e : PyExc)
    (* f"Calibration step failed for point {calibration_point}: {e}" *)
| profile_empty.
    (* "Calibration profile is empty." *)

Arguments profile_empty {F Frame}.

Module GazeEstimationEngine.

Section Methods.

Context {F A Frame : Type} `{CalibrationAgent F A}.

(** The instance attributes [gaze_net] and [cal_agent]; of the predictor only
    [predict_gaze_vector] is used, so [gaze_net] is that method.  The profile
    store [cds] takes no part in calibration steps or predictions and is left
    out.  [stdout] collects what [print] writes, oldest line first. *)
Record self : Type := {
  gaze_net : Frame -> result (F * F * F * F);
  cal_agent : A;
  stdout : list (Printed F Frame)
}.

(** [GazeEstimationEngine(gaze_net, cal_agent, cds)]. *)
Definition __init__ (gaze_net : Frame -> result (F * F * F * F)) (cal_agent : A)
  : self :=
  {| gaze_net := gaze_net; cal_agent := cal_agent; stdout := [] |}.

(** [self.gaze_net.predict_gaze_vector(frame)]. *)
Definition predict_gaze_vector (frame : Frame) : M self (F * F * F * F) :=
  fun s => (gaze_net s frame, s).

(** A method call on [self.cal_agent]: it runs on the agent the engine holds,
    and what it writes to the agent is written there. *)
Definition on_cal_agent {X : Type} (m : M A X) : M self X :=
  fun s =>
    let (r, a) := m (cal_agent s) in
    (r, {| gaze_net := gaze_net s; cal_agent := a; stdout := stdout s |}).

Definition print (line : Printed F Frame) : M self unit :=
  modify (fun s =>
    {| gaze_net := gaze_net s; cal_agent := cal_agent s;
       stdout := stdout s ++ [line] |}).

Definition run_single_calibration_step (x y : F) (frame : Frame) : M self unit :=
  '(_, _, theta, phi) <- predict_gaze_vector frame ;;
  on_cal_agent (calibration_step [x; y; theta; phi]).

Fixpoint run_calibration_steps (calibration_data : list (F * F * Frame))
  : M self unit :=
  match calibration_data with
  | [] => ret tt
  | calibration_point :: rest =>
      try_except
        (run_single_calibration_step
           (fst (fst calibration_point)) (snd (fst calibration_point))
           (snd calibration_point))
        is_Exception
        (fun e => print (step_failed calibration_point e)) ;;;
      run_calibration_steps rest
  end.

(** One turn of that loop, named for the proofs: the step, with its
    exceptions caught and printed. *)
Definition guarded_step (calibration_point : F * F * Frame) : M self unit :=
  try_except
    (run_single_calibration_step
       (fst (fst calibration_point)) (snd (fst calibration_point))
       (snd calibration_point))
    is_Exception
    (fun e => print (step_failed calibration_point e)).

Definition predict_gaze_position (image : Frame)
  : M self (option F * option F) :=
  '(_, _, theta, phi) <- predict_gaze_vector image ;;
  try_except
    ('(screen_x, screen_y) <-
        on_cal_agent (calculate_point_of_regard [theta; phi]) ;;
     ret (Some screen_x, Some screen_y))
    is_ZeroDivisionError
    (fun _ => print profile_empty ;;; ret (None, None)).

End Methods.

Arguments self F A Frame : clear implicits.

End GazeEstimationEngine.

(* ================================================================== *)
(** * Inverse-distance weighting, as the specification writes it *)

(** The formula of section 4.2 of the specification, evaluated in Python's
    float arithmetic: for a query angle [a] and calibration points
    [(a_i, c_i)], [weight_i = 1 / (|a - a_i| + 1e-6)] and
    [result = (sum_i weight_i * c_i) / (sum_i weight_i)], the sums running
    over the points in their order.  A division by zero raises, as it does in
    Python.  This is what the agent's [_interpolate] is compared with. *)
Module InverseDistanceWeighting.

Open Scope float_scope.

Definition weight (a a_i : float) : result float :=
  Binary64.truediv 1 (abs (a - a_i) + Binary64.lit_1e_6).

Definition estimate (a : float) (points : list (float * float)) : result float :=
  weights <~ comprehension (weight a) (map fst points) ;;
  Binary64.truediv
    (sum (map (fun '(w, c) => w * c) (combine weights (map snd points))))
    (sum weights).

(** The range of query angles the formula is claimed for: the difference
    [d = a - a_i] is in range when [d ** 2] does not overflow and the square
    root of the square is [|d|] again once [1e-6] is added to it (a square
    root can lose [|d|] only where the square underflows, far below
    [1e-6]). *)
Definition in_range (a a_i : float) : bool :=
  let d := a - a_i in
  negb (is_finite d && is_infinity (d * d)) &&
  Leibniz.eqb (sqrt (d * d) + Binary64.lit_1e_6) (abs d + Binary64.lit_1e_6).

(** The calibration points of the two axes: [theta] against [monitor_x],
    [phi] against [monitor_y]. *)
Definition x_points (m : CalibrationMap float) : list (float * float) :=
  map (fun p => (sample_theta p, sample_monitor_x p)) (samples m).

Definition y_points (m : CalibrationMap float) : list (float * float) :=
  map (fun p => (sample_phi p, sample_monitor_y p)) (samples m).

End InverseDistanceWeighting.

(* ================================================================== *)
(** * Stand-ins and sample data *)

(** An agent with the parameter lists the engines pass ([x, y, theta, phi]
    and [theta, phi]), forwarding to an [InterpolationAgent] with the head
    position fixed at [0].  It is not part of the repository: it serves to
    run the engines' loop and exception handler past the call into the
    agent. *)
Module AngleOnlyAdapter.

Section Methods.

Context {F : Type} `{PyFloat F}.

Definition calibration_step (args : list F) : M (InterpolationAgent.self F) unit :=
  match args with
  | [x; y; theta; phi] =>
      InterpolationAgent.calibration_step [x; y; f_zero; f_zero; theta; phi]
  | _ => raise TypeError
  end.

Definition calculate_point_of_regard (args : list F)
  : M (InterpolationAgent.self F) (F * F) :=
  match args with
  | [theta; phi] =>
      InterpolationAgent.calculate_point_of_regard [f_zero; f_zero; theta; phi]
  | _ => raise TypeError
  end.

Definition agent : CalibrationAgent F (InterpolationAgent.self F) :=
  Build_CalibrationAgent calibration_step calculate_point_of_regard.

End Methods.

End AngleOnlyAdapter.

(** Frames for the examples: on [face] the predictor finds a face looking at
    the given angles, on [no_face] it fails. *)
Inductive TestFrame : Type :=
| face (theta phi : float)
| no_face.

Module Samples.

Open Scope float_scope.

(** The binary64 values of the decimal literals used below. *)
Definition f0_1 : float := 0x1.999999999999ap-4.   (* 0.1 *)
Definition f0_2 : float := 0x1.999999999999ap-3.   (* 0.2 *)
Definition f0_3 : float := 0x1.3333333333333p-2.   (* 0.3 *)
Definition f0_7 : float := 0x1.6666666666666p-1.   (* 0.7 *)
Definition f1e200 : float := 0x1.4e718d7d7625ap+664.  (* 1e200 *)
Definition f1e307 : float := 0x1.c7b1f3cac7433p+1019. (* 1e307 *)

(** A predictor that reports the head at the origin. *)
Definition test_net (frame : TestFrame) : result (float * float * float * float) :=
  match frame with
  | face theta phi => Ok (0, 0, theta, phi)
  | no_face => Raise (Other "PredictionError")
  end.

Definition sample (monitor_x monitor_y theta phi : float) : CalibrationSample float :=
  {| sample_monitor_x := monitor_x; sample_monitor_y := monitor_y;
     sample_head_x := 0; sample_head_y := 0;
     sample_theta := theta; sample_phi := phi |}.

Definition agent_of (l : list (CalibrationSample float)) : InterpolationAgent.self float :=
  {| InterpolationAgent.calibration_map := {| samples := l |} |}.

(** An engine around the agent that [InterpolationAgent()] builds. *)
Definition fresh
  : GazeEstimationEngine.self float (InterpolationAgent.self float) TestFrame :=
  GazeEstimationEngine.__init__ test_net InterpolationAgent.__init__.

(** Three entries the predictor accepts and one it rejects. *)
Definition batch : list (float * float * TestFrame) :=
  [ (100, 100, face f0_1 f0_1);
    (500, 500, face f0_3 f0_3);
    (300, 300, no_face);
    (300, 300, face f0_2 f0_2) ].

(** Reading the first coordinate of an outcome, to tell floats apart. *)
Definition x_is (v : float) (r : result (float * float)) : bool :=
  match r with
  | Ok (x, _) => x =? v
  | Raise _ => false
  end.

End Samples.

(** What a calibration step or a prediction of an engine over an
    [InterpolationAgent] raises on [frame]: what the predictor raised, or
    else the [TypeError] of the call into the agent. *)
Definition step_outcome {F Frame : Type}
    (s : GazeEstimationEngine.self F (InterpolationAgent.self F) Frame)
    (frame : Frame) : PyExc :=
  match GazeEstimationEngine.gaze_net s frame with
  | Ok _ => TypeError
  | Raise exc => exc
  end.

(* ================================================================== *)
(** * Profiles ([save_profile], [load_profile], [list_profiles],
      [delete_profile] of the engines; [save_current_profile] of [main.py]) *)

(** The profile store the engine holds as [self.cds].  Its class
    ([CalibrationDataStore], [CalibrationProfileStore]) is not among the
    sources, so the four methods the engine calls are parameters: each works
    on the store, of some type [C], and can raise.  [L] is whatever
    [list_profiles] returns. *)
Class ProfileStore (F C L : Type) : Type := {
  store_save_profile : string -> CalibrationMap F -> M C unit;
  store_load_profile : Z -> M C (CalibrationMap F);
  store_list_profiles : M C L;
  store_delete_profile : Z -> M C unit
}.

(** An agent with a [calibration_map] attribute, which the engine reads in
    [save_profile] and assigns in [load_profile]. *)
Class HoldsCalibrationMap (F A : Type) : Type := {
  get_calibration_map : A -> CalibrationMap F;
  set_calibration_map : CalibrationMap F -> A -> A
}.

#[export] Instance InterpolationAgent_HoldsCalibrationMap {F : Type}
  : HoldsCalibrationMap F (InterpolationAgent.self F) := {
  get_calibration_map := @InterpolationAgent.calibration_map F;
  set_calibration_map := fun m _ => {| InterpolationAgent.calibration_map := m |}
}.

Module EngineProfiles.

Section Methods.

Context {F A C L Frame : Type}
        `{HoldsCalibrationMap F A} `{ProfileStore F C L}.

(** The engine with the attribute [cds] that [GazeEstimationEngine.self]
    leaves out. *)
Record self : Type := {
  engine : GazeEstimationEngine.self F A Frame;
  cds : C
}.

(** A method call on [self.cds]. *)
Definition on_cds {X : Type} (m : M C X) : M self X :=
  fun s =>
    let (r, c) := m (cds s) in
    (r, {| engine := engine s; cds := c |}).

(** [self.cal_agent.calibration_map = m]. *)
Definition assign_calibration_map (m : CalibrationMap F) : M self unit :=
  modify (fun s =>
    {| engine :=
         {| GazeEstimationEngine.gaze_net := GazeEstimationEngine.gaze_net (engine s);
            GazeEstimationEngine.cal_agent :=
              set_calibration_map m (GazeEstimationEngine.cal_agent (engine s));
            GazeEstimationEngine.stdout := GazeEstimationEngine.stdout (engine s) |};
       cds := cds s |}).

Definition save_profile (name : string) : M self unit :=
  m <- gets (fun s => get_calibration_map (GazeEstimationEngine.cal_agent (engine s))) ;;
  on_cds (store_save_profile name m).

Definition load_profile (id : Z) : M self unit :=
  m <- on_cds (store_load_profile id) ;;
  assign_calibration_map m.

Definition list_profiles : M self L := on_cds store_list_profiles.

Definition delete_profile (id : Z) : M self unit :=
  on_cds (store_delete_profile id).

End Methods.

Arguments self F A C Frame : clear implicits.

End EngineProfiles.

(** The module-level dictionary [resources] of [main.py] and the endpoint
    [save_current_profile].  Only the key ["gaze_engine"] is ever used:
    [resources.get("gaze_engine")] is [None] before start-up, and calling a
    method on [None] raises [AttributeError]. *)
Module Main.

Section Endpoints.

Context {F A C L Frame : Type}
        `{HoldsCalibrationMap F A} `{ProfileStore F C L}.

Definition resources : Type := option (EngineProfiles.self F A C Frame).

(** A method call on [resources.get("gaze_engine")]. *)
Definition on_gaze_engine {X : Type} (m : M (EngineProfiles.self F A C Frame) X)
  : M resources X :=
  fun r =>
    match r with
    | Some gaze_engine =>
        let (x, gaze_engine') := m gaze_engine in (x, Some gaze_engine')
    | None => (Raise (Other "AttributeError"), None)
    end.

(** The value of the returned dictionary's ["message"]. *)
Definition save_current_profile (name : string) : M resources string :=
  on_gaze_engine (EngineProfiles.save_profile "profile_name") ;;;
  ret ("Profile '" ++ name ++ "' saved successfully.")%string.

End Endpoints.

End Main.

(** A store for the examples: the saved maps under their names, newest
    first; a profile's id is its position from the oldest, and loading or
    deleting an unknown id raises. *)
Module ListStore.

Section Methods.

Context {F : Type}.

Definition store : Type := list (string * CalibrationMap F).

Definition save_profile (name : string) (m : CalibrationMap F) : M store unit :=
  modify (fun st => (name, m) :: st).

Definition load_profile (id : Z) : M store (CalibrationMap F) :=
  fun st =>
    match nth_error (rev st) (Z.to_nat id) with
    | Some (_, m) => (Ok m, st)
    | None => (Raise (Other "ProfileNotFoundError"), st)
    end.

Definition list_profiles : M store (list string) :=
  gets (fun st => map fst (rev st)).

Definition delete_profile (id : Z) : M store unit :=
  fun st =>
    match nth_error (rev st) (Z.to_nat id) with
    | Some _ => (Ok tt, st)
    | None => (Raise (Other "ProfileNotFoundError"), st)
    end.

Definition instance : ProfileStore F store (list string) :=
  Build_ProfileStore save_profile load_profile list_profiles delete_profile.

End Methods.

End ListStore.

(** More sample data: a predictor that reports the same angles as
    [Samples.test_net] with the head elsewhere, an agent calibrated with the
    two samples of the specification's scenario, and an engine with a store
    that holds one saved profile. *)
Module MoreSamples.

Import Samples.
Open Scope float_scope.

Definition test_net_moved (frame : TestFrame)
  : result (float * float * float * float) :=
  match frame with
  | face theta phi => Ok (1, 2, theta, phi)
  | no_face => Raise (Other "PredictionError")
  end.

(** A predictor that is interrupted on the frames without a face. *)
Definition test_net_interrupted (frame : TestFrame)
  : result (float * float * float * float) :=
  match frame with
  | face theta phi => Ok (0, 0, theta, phi)
  | no_face => Raise (BaseOnly "KeyboardInterrupt")
  end.

Definition calibrated : InterpolationAgent.self float :=
  agent_of [sample 100 100 f0_1 f0_1; sample 500 500 f0_3 f0_3].

Definition saved_map : CalibrationMap float :=
  {| samples := [sample 300 300 f0_2 f0_2] |}.

Definition with_store
  : EngineProfiles.self float (InterpolationAgent.self float)
      (ListStore.store (F := float)) TestFrame :=
  {| EngineProfiles.engine := GazeEstimationEngine.__init__ test_net calibrated;
     EngineProfiles.cds := [("home"%string, saved_map)] |}.

End MoreSamples.

(* ================================================================== *)
(** * Properties *)

(** ** Binary64 raises on division by the empty sum *)

#[export] Instance binary64_ZeroDivision : ZeroDivision float.
Proof. intro x. reflexivity. Qed.

(** ** The interpolation agent, in any arithmetic *)

Section AnyArithmetic.

Context {F : Type} `{ZeroDivision F}.

Let agent := InterpolationAgent.self F.

(** With no calibration angle there is no weight: the sums are both the
    [0] that [sum] starts from, and the final division raises. *)
Lemma interpolate_no_angles (position angle : F) (coordinates : list F) :
  InterpolationAgent._interpolate position angle coordinates [] =
  Raise ZeroDivisionError.
Proof.
  unfold InterpolationAgent._interpolate. cbn. apply f_truediv_zero.
Qed.

(** The position argument of [_interpolate] is dead. *)
Lemma interpolate_position_unused (p p' angle : F) (coordinates angles : list F) :
  InterpolationAgent._interpolate p angle coordinates angles =
  InterpolationAgent._interpolate p' angle coordinates angles.
Proof. reflexivity. Qed.

(** A query with four arguments runs the two interpolations in turn, the one
    for [x] first, and hands back the agent it was given. *)
Lemma calculate_point_of_regard_eq (s : agent) (head_x head_y theta phi : F) :
  InterpolationAgent.calculate_point_of_regard [head_x; head_y; theta; phi] s =
  (x_screen <~
     InterpolationAgent._interpolate head_x theta
       (monitor_x_values (InterpolationAgent.calibration_map s))
       (theta_values (InterpolationAgent.calibration_map s)) ;;
   y_screen <~
     InterpolationAgent._interpolate head_y phi
       (monitor_y_values (InterpolationAgent.calibration_map s))
       (phi_values (InterpolationAgent.calibration_map s)) ;;
   Ok (x_screen, y_screen),
   s).
Proof.
  unfold InterpolationAgent.calculate_point_of_regard, bind, gets, lift, ret.
  destruct (InterpolationAgent._interpolate head_x theta _ _); cbn;
    [ destruct (InterpolationAgent._interpolate head_y phi _ _) | ];
    reflexivity.
Qed.

(** Any other number of arguments is a [TypeError], and the agent is left as
    it was. *)
Lemma calculate_point_of_regard_arity (s : agent) (args : list F) :
  List.length args <> 4 ->
  InterpolationAgent.calculate_point_of_regard args s = (Raise TypeError, s).
Proof.
  intro Hlen.
  destruct args as [| a0 [| a1 [| a2 [| a3 [| a4 rest]]]]];
    try reflexivity.
  now elim Hlen.
Qed.

Lemma calibration_step_arity (s : agent) (args : list F) :
  List.length args <> 6 ->
  InterpolationAgent.calibration_step args s = (Raise TypeError, s).
Proof.
  intro Hlen.
  destruct args as [| a0 [| a1 [| a2 [| a3 [| a4 [| a5 [| a6 rest]]]]]]];
    try reflexivity.
  now elim Hlen.
Qed.

(** Called with its six arguments, [calibration_step] appends the sample to
    the agent's calibration map. *)
Lemma calibration_step_records
    (s : agent) (monitor_x monitor_y head_x head_y theta phi : F) :
  InterpolationAgent.calibration_step
    [monitor_x; monitor_y; head_x; head_y; theta; phi] s =
  (Ok tt,
   {| InterpolationAgent.calibration_map :=
        {| samples :=
             samples (InterpolationAgent.calibration_map s) ++
             [ {| sample_monitor_x := monitor_x; sample_monitor_y := monitor_y;
                  sample_head_x := head_x; sample_head_y := head_y;
                  sample_theta := theta; sample_phi := phi |} ] |} |}).
Proof. reflexivity. Qed.

(** After any number of calibration points the views have one length. *)
Lemma views_have_one_length (m : CalibrationMap F) :
  List.length (monitor_x_values m) = List.length (samples m) /\
  List.length (monitor_y_values m) = List.length (samples m) /\
  List.length (head_x_values m) = List.length (samples m) /\
  List.length (head_y_values m) = List.length (samples m) /\
  List.length (theta_values m) = List.length (samples m) /\
  List.length (phi_values m) = List.length (samples m).
Proof.
  unfold monitor_x_values, monitor_y_values, head_x_values, head_y_values,
    theta_values, phi_values.
  repeat split; apply length_map.
Qed.

End AnyArithmetic.

(** ** Queries against the interpolation agent *)

Section Queries.

Context {F : Type} `{ZeroDivision F}.

Let agent := InterpolationAgent.self F.

(** C1 (amended): on an agent whose calibration map holds no sample,
    [calculate_point_of_regard] raises [ZeroDivisionError], the fault of the
    division [0 / 0] of the two empty sums, and the agent is left as it was.
    The code defines and raises no [EmptyCalibrationError]. *)
Theorem empty_map_raises_ZeroDivisionError
    (s : agent) (head_x head_y theta phi : F) :
  samples (InterpolationAgent.calibration_map s) = [] ->
  InterpolationAgent.calculate_point_of_regard [head_x; head_y; theta; phi] s =
  (Raise ZeroDivisionError, s).
Proof.
  intro Hempty.
  rewrite calculate_point_of_regard_eq.
  unfold theta_values. rewrite Hempty. cbn [map].
  rewrite interpolate_no_angles. reflexivity.
Qed.

(** C9: for the same [theta] and [phi], [calculate_point_of_regard] gives the
    same outcome whatever head position it is called with. *)
Theorem head_position_does_not_influence_point_of_regard
    (s : agent) (head_x1 head_y1 head_x2 head_y2 theta phi : F) :
  InterpolationAgent.calculate_point_of_regard [head_x1; head_y1; theta; phi] s =
  InterpolationAgent.calculate_point_of_regard [head_x2; head_y2; theta; phi] s.
Proof.
  rewrite !calculate_point_of_regard_eq.
  rewrite (interpolate_position_unused head_x1 head_x2).
  rewrite (interpolate_position_unused head_y1 head_y2).
  reflexivity.
Qed.

(** C10: whatever the arguments and whatever the outcome (a point, a
    [ZeroDivisionError], a [TypeError]), the agent after a call of
    [calculate_point_of_regard] is the agent before it: the calibration map,
    hence each of its views, is untouched. *)
Theorem calculate_point_of_regard_leaves_agent_unchanged
    (args : list F) (s : agent) :
  snd (InterpolationAgent.calculate_point_of_regard args s) = s.
Proof.
  destruct args as [| a0 [| a1 [| a2 [| a3 [| a4 rest]]]]];
    try reflexivity.
  rewrite calculate_point_of_regard_eq. reflexivity.
Qed.

End Queries.

(** The views after a query, spelled out. *)
Corollary calculate_point_of_regard_keeps_views
    {F : Type} `{PyFloat F} (args : list F) (s : InterpolationAgent.self F) :
  let m := InterpolationAgent.calibration_map s in
  let m' := InterpolationAgent.calibration_map
              (snd (InterpolationAgent.calculate_point_of_regard args s)) in
  monitor_x_values m' = monitor_x_values m /\
  monitor_y_values m' = monitor_y_values m /\
  head_x_values m' = head_x_values m /\
  head_y_values m' = head_y_values m /\
  theta_values m' = theta_values m /\
  phi_values m' = phi_values m.
Proof.
  cbv zeta.
  destruct args as [| a0 [| a1 [| a2 [| a3 [| a4 rest]]]]];
    try (cbn; repeat split; reflexivity).
  rewrite calculate_point_of_regard_eq. cbn. repeat split; reflexivity.
Qed.

(** A query on a fresh agent, in binary64. *)
Lemma empty_map_raises_ZeroDivisionError_witness :
  samples (InterpolationAgent.calibration_map (Samples.agent_of [])) = [] /\
  InterpolationAgent.calculate_point_of_regard
    [0; 0; Samples.f0_1; Samples.f0_2]%float (Samples.agent_of []) =
  (Raise ZeroDivisionError, Samples.agent_of []).
Proof.
  split.
  - reflexivity.
  - apply (empty_map_raises_ZeroDivisionError (Samples.agent_of [])). reflexivity.
Defined.

(** C1 (as stated) fails: a query on the agent that [InterpolationAgent()]
    builds raises [ZeroDivisionError], which is not an
    [EmptyCalibrationError]. *)
Lemma empty_map_query_is_a_division_fault :
  fst (InterpolationAgent.calculate_point_of_regard
         [0; 0; Samples.f0_1; Samples.f0_2]%float InterpolationAgent.__init__) =
  Raise ZeroDivisionError /\
  fst (InterpolationAgent.calculate_point_of_regard
         [0; 0; Samples.f0_1; Samples.f0_2]%float InterpolationAgent.__init__) <>
  Raise (Other "EmptyCalibrationError").
Proof.
  split.
  - reflexivity.
  - discriminate.
Qed.

(** ** The engine, for any calibration agent *)

Section AnyAgent.

Context {F A Frame : Type} `{CalibrationAgent F A}.

Let engine := GazeEstimationEngine.self F A Frame.


(** The batch is processed from its first element to its last, each element
    by a guarded step on the engine the previous one left; an exception that
    leaves a guarded step ends the loop. *)
Lemma run_calibration_steps_cons
    (calibration_point : F * F * Frame) (rest : list (F * F * Frame))
    (s : engine) :
  GazeEstimationEngine.run_calibration_steps (calibration_point :: rest) s =
  match GazeEstimationEngine.guarded_step calibration_point s with
  | (Ok _, s') => GazeEstimationEngine.run_calibration_steps rest s'
  | (Raise e, s') => (Raise e, s')
  end.
Proof. reflexivity. Qed.

(** C5 (amended): when the predictor returns and the agent's
    [calculate_point_of_regard], called with [(theta, phi)], raises
    [ZeroDivisionError], [predict_gaze_position] catches it, prints
    ["Calibration profile is empty."] and returns the plain pair
    [(None, None)] as its ordinary result.  No [EmptyCalibrationError] and no
    other marker reaches the caller. *)
Theorem predict_gaze_position_on_ZeroDivisionError
    (s : engine) (image : Frame) (head_x head_y theta phi : F) (a' : A) :
  GazeEstimationEngine.gaze_net s image = Ok (head_x, head_y, theta, phi) ->
  calculate_point_of_regard [theta; phi] (GazeEstimationEngine.cal_agent s) =
    (Raise ZeroDivisionError, a') ->
  GazeEstimationEngine.predict_gaze_position image s =
  (Ok (None, None),
   {| GazeEstimationEngine.gaze_net := GazeEstimationEngine.gaze_net s;
      GazeEstimationEngine.cal_agent := a';
      GazeEstimationEngine.stdout :=
        GazeEstimationEngine.stdout s ++ [profile_empty] |}).
Proof.
  intros Hnet Hagent.
  unfold GazeEstimationEngine.predict_gaze_position, bind at 1.
  unfold GazeEstimationEngine.predict_gaze_vector. rewrite Hnet.
  unfold try_except, bind, GazeEstimationEngine.on_cal_agent.
  rewrite Hagent. reflexivity.
Qed.

End AnyAgent.

(** ** The engine over an interpolation agent *)

Section OverInterpolationAgent.

Context {F Frame : Type} `{PyFloat F}.

Let engine := GazeEstimationEngine.self F (InterpolationAgent.self F) Frame.

(** C3 (what the code does): [run_single_calibration_step] never records a
    sample.  It drops the head position the predictor returned and calls
    [calibration_step(x, y, theta, phi)], four arguments for six parameters,
    so the call raises [TypeError] and the engine, its agent and the
    calibration map are left as they were. *)
Theorem run_single_calibration_step_raises
    (s : engine) (x y : F) (frame : Frame) :
  GazeEstimationEngine.run_single_calibration_step x y frame s =
  (Raise (step_outcome s frame), s).
Proof.
  unfold GazeEstimationEngine.run_single_calibration_step, bind, step_outcome.
  unfold GazeEstimationEngine.predict_gaze_vector.
  destruct (GazeEstimationEngine.gaze_net s frame)
    as [[[[head_x head_y] theta] phi] | exc]; [ | reflexivity ].
  destruct s; reflexivity.
Qed.

(** C4 (what the code does): [predict_gaze_position] never returns a point.
    It calls [calculate_point_of_regard(theta, phi)], two arguments for four
    parameters; the [TypeError] is not a [ZeroDivisionError], so the handler
    lets it through. *)
Theorem predict_gaze_position_raises (s : engine) (image : Frame) :
  GazeEstimationEngine.predict_gaze_position image s =
  (Raise (step_outcome s image), s).
Proof.
  unfold GazeEstimationEngine.predict_gaze_position, bind at 1.
  unfold GazeEstimationEngine.predict_gaze_vector, step_outcome.
  destruct (GazeEstimationEngine.gaze_net s image)
    as [[[[head_x head_y] theta] phi] | exc]; [ | reflexivity ].
  destruct s; reflexivity.
Qed.

(** Every element of a batch fails, so whether the loop runs to its end or is
    left early, the agent ends as it started. *)
Lemma run_calibration_steps_records_nothing
    (calibration_data : list (F * F * Frame)) (s : engine) :
  GazeEstimationEngine.cal_agent
    (snd (GazeEstimationEngine.run_calibration_steps calibration_data s)) =
  GazeEstimationEngine.cal_agent s.
Proof.
  revert s.
  induction calibration_data as [| calibration_point rest IH]; intro s.
  - reflexivity.
  - rewrite run_calibration_steps_cons.
    unfold GazeEstimationEngine.guarded_step, try_except.
    assert (Hstep :
      GazeEstimationEngine.run_single_calibration_step
        (fst (fst calibration_point)) (snd (fst calibration_point))
        (snd calibration_point) s =
      (Raise (step_outcome s (snd calibration_point)), s)).
    { unfold GazeEstimationEngine.run_single_calibration_step, bind, step_outcome.
      unfold GazeEstimationEngine.predict_gaze_vector.
      destruct (GazeEstimationEngine.gaze_net s (snd calibration_point))
        as [[[[head_x head_y] theta] phi] | exc]; [ | reflexivity ].
      destruct s; reflexivity. }
    rewrite Hstep.
    destruct (is_Exception (step_outcome s (snd calibration_point)));
      [ | reflexivity].
    cbn. rewrite IH. reflexivity.
Qed.

End OverInterpolationAgent.

(** ** The engine on sample inputs, in binary64 *)

Module EngineExamples.

Import Samples.
Open Scope float_scope.

(** One calibration step on a fresh engine: a [TypeError], nothing recorded. *)
Example single_step_on_fresh_engine :
  GazeEstimationEngine.run_single_calibration_step 100 100 (face f0_1 f0_2) fresh =
  (Raise TypeError, fresh).
Proof. reflexivity. Qed.

(** A prediction on an engine calibrated with one sample: a [TypeError]. *)
Example prediction_on_calibrated_engine :
  fst (GazeEstimationEngine.predict_gaze_position (face f0_1 f0_2)
         (GazeEstimationEngine.__init__ test_net
            (agent_of [sample 100 100 f0_1 f0_2]))) =
  Raise TypeError.
Proof. reflexivity. Qed.

(** C6 (what the code does): the batch of three good entries and one bad one
    runs to its end and every element is printed as failed, in order, but no
    sample is recorded, where the scenario expects three. *)
Theorem batch_of_three_valid_one_malformed :
  let (r, s) := GazeEstimationEngine.run_calibration_steps batch fresh in
  r = Ok tt /\
  samples (InterpolationAgent.calibration_map (GazeEstimationEngine.cal_agent s)) = [] /\
  GazeEstimationEngine.stdout s =
    [ step_failed (100, 100, face f0_1 f0_1) TypeError;
      step_failed (500, 500, face f0_3 f0_3) TypeError;
      step_failed (300, 300, no_face) (Other "PredictionError");
      step_failed (300, 300, face f0_2 f0_2) TypeError ].
Proof. cbn. repeat split; reflexivity. Qed.

(** The loop itself is sound: behind an agent that takes the arguments the
    engine passes, the same batch records its three good entries, in order,
    and prints the bad one. *)
Example batch_behind_adapter :
  let (r, s) :=
    GazeEstimationEngine.run_calibration_steps (H := AngleOnlyAdapter.agent)
      batch fresh in
  r = Ok tt /\
  samples (InterpolationAgent.calibration_map (GazeEstimationEngine.cal_agent s)) =
    [ sample 100 100 f0_1 f0_1; sample 500 500 f0_3 f0_3;
      sample 300 300 f0_2 f0_2 ] /\
  GazeEstimationEngine.stdout s =
    [ step_failed (300, 300, no_face) (Other "PredictionError") ].
Proof. cbn. repeat split; reflexivity. Qed.

(** A prediction behind the adapter, before any calibration. *)
Lemma predict_gaze_position_on_ZeroDivisionError_witness :
  GazeEstimationEngine.gaze_net fresh (face f0_1 f0_2) = Ok (0, 0, f0_1, f0_2) /\
  AngleOnlyAdapter.calculate_point_of_regard [f0_1; f0_2]
    (GazeEstimationEngine.cal_agent fresh) =
    (Raise ZeroDivisionError, InterpolationAgent.__init__) /\
  GazeEstimationEngine.predict_gaze_position (H := AngleOnlyAdapter.agent)
    (face f0_1 f0_2) fresh =
  (Ok (None, None),
   {| GazeEstimationEngine.gaze_net := test_net;
      GazeEstimationEngine.cal_agent := InterpolationAgent.__init__;
      GazeEstimationEngine.stdout := [profile_empty] |}).
Proof.
  split; [reflexivity | split; [reflexivity | ]].
  apply (predict_gaze_position_on_ZeroDivisionError
           (H := AngleOnlyAdapter.agent) fresh (face f0_1 f0_2)
           (head_x := 0) (head_y := 0) (theta := f0_1) (phi := f0_2)
           (a' := InterpolationAgent.__init__));
    reflexivity.
Defined.

(** C5 (as stated) fails.  On a fresh engine no [EmptyCalibrationError]
    reaches the caller: the call into the interpolation agent raises
    [TypeError]; and where the call does reach the division (behind the
    adapter), the handler turns the [ZeroDivisionError] into the plain pair
    [(None, None)], returned as a result. *)
Lemma uncalibrated_prediction_surfaces_no_EmptyCalibrationError :
  fst (GazeEstimationEngine.predict_gaze_position (face f0_1 f0_2) fresh) =
    Raise TypeError /\
  fst (GazeEstimationEngine.predict_gaze_position (face f0_1 f0_2) fresh) <>
    Raise (Other "EmptyCalibrationError") /\
  fst (GazeEstimationEngine.predict_gaze_position (H := AngleOnlyAdapter.agent)
         (face f0_1 f0_2) fresh) =
    Ok (None, None).
Proof.
  split; [reflexivity | split; [discriminate | reflexivity]].
Qed.

End EngineExamples.

(** ** Facts of binary64 arithmetic *)

Module Binary64Facts.

Open Scope float_scope.

Lemma Prim2SF_zero : Prim2SF 0 = S754_zero false.
Proof. reflexivity. Qed.

Lemma SF64add_comm (x y : spec_float) : SF64add x y = SF64add y x.
Proof.
  unfold SF64add, SFadd.
  destruct x as [sx | sx | | sx mx ex], y as [sy | sy | | sy my ey];
    try reflexivity; try (destruct sx, sy; reflexivity).
  rewrite (Z.min_comm ey ex). f_equal. apply Z.add_comm.
Qed.

(** Adding to the [0] that [sum] starts from turns [-0.0] into [0.0] and
    leaves every other float as it is; either way two terms can be added in
    either order. *)
Lemma SF64add_from_zero (x y : spec_float) :
  SF64add (SF64add (S754_zero false) x) y =
  SF64add (SF64add (S754_zero false) y) x.
Proof.
  destruct x as [sx | sx | | sx mx ex], y as [sy | sy | | sy my ey];
    try reflexivity; try (destruct sx, sy; reflexivity);
    try (destruct sx; reflexivity); try (destruct sy; reflexivity).
  apply SF64add_comm.
Qed.

Lemma sum_of_two (x y : float) : sum [x; y] = sum [y; x].
Proof.
  unfold sum. cbn.
  apply Prim2SF_inj. rewrite !add_spec, Prim2SF_zero. apply SF64add_from_zero.
Qed.

(** A rounded value keeps the sign it is given. *)
Lemma binary_round_aux_not_negative (mx ex : Z) (lx : location) :
  SFltb (binary_round_aux prec emax false mx ex lx) (S754_zero false) = false.
Proof.
  unfold binary_round_aux.
  destruct (shr_fexp prec emax mx ex lx) as [mrs' e'].
  destruct (shr_fexp prec emax _ e' loc_Exact) as [mrs'' e''].
  destruct (shr_m mrs'') as [| m | m]; try reflexivity.
  destruct (Z.leb e'' (emax - prec)); reflexivity.
Qed.

(** A square is not below zero (it can be NaN). *)
Lemma square_not_negative (x : float) : (x * x <? 0) = false.
Proof.
  rewrite ltb_spec, mul_spec, Prim2SF_zero.
  unfold SF64mul, SFmul.
  destruct (Prim2SF x) as [s | s | | s m e];
    try (destruct s; reflexivity); try reflexivity.
  replace (xorb s s) with false by (now destruct s).
  apply binary_round_aux_not_negative.
Qed.

(** So [math.sqrt] of a square never raises: the distance to a calibration
    angle is computed, or the squaring overflows. *)
Lemma distance_outcome (angle calib_angle : float) :
  (sq <~ f_pow2 (f_sub angle calib_angle) ;; f_sqrt sq) =
    Ok (sqrt ((angle - calib_angle) * (angle - calib_angle))) \/
  (sq <~ f_pow2 (f_sub angle calib_angle) ;; f_sqrt sq) = Raise OverflowError.
Proof.
  cbn. unfold Binary64.pow2.
  destruct (is_finite (angle - calib_angle) &&
            is_infinity ((angle - calib_angle) * (angle - calib_angle)));
    [right; reflexivity | left].
  cbn. unfold Binary64.math_sqrt. now rewrite square_not_negative.
Qed.

(** The weight of a distance is computed, or its divisor is zero. *)
Lemma weight_outcome (distance : float) :
  f_truediv f_one (f_add distance f_1e_6) = Ok (1 / (distance + Binary64.lit_1e_6)) \/
  f_truediv f_one (f_add distance f_1e_6) = Raise ZeroDivisionError.
Proof.
  cbn. unfold Binary64.truediv.
  destruct (distance + Binary64.lit_1e_6 =? 0); [right | left]; reflexivity.
Qed.

Lemma Prim2SF_infinite (x : float) :
  is_infinity x = true -> exists s, Prim2SF x = S754_infinity s.
Proof.
  unfold is_infinity. rewrite eqb_spec, abs_spec.
  destruct (Prim2SF x) as [s | s | | s m e]; cbn; try discriminate.
  intros _. now exists s.
Qed.

Lemma Prim2SF_finite (x : float) :
  is_finite x = true ->
  (exists s, Prim2SF x = S754_zero s) \/
  (exists s m e, Prim2SF x = S754_finite s m e).
Proof.
  unfold is_finite, is_nan, is_infinity. rewrite !eqb_spec, abs_spec.
  destruct (Prim2SF x) as [s | s | | s m e]; cbn.
  - intros _. left. now exists s.
  - destruct s; discriminate.
  - discriminate.
  - intros _. right. now exists s, m, e.
Qed.

(** An infinite angle is infinitely far from every finite one. *)
Lemma infinite_difference (a a_i : float) :
  is_infinity a = true -> is_finite a_i = true ->
  (a - a_i) * (a - a_i) = infinity /\ is_finite (a - a_i) = false.
Proof.
  intros Ha Hi.
  destruct (@Prim2SF_infinite a Ha) as [s Hs].
  assert (Hd : Prim2SF (a - a_i) = S754_infinity s).
  { rewrite sub_spec, Hs.
    destruct (@Prim2SF_finite a_i Hi) as [[s' ->] | [s' [m [e ->]]]]; reflexivity. }
  split.
  - apply Prim2SF_inj. rewrite mul_spec, Hd. cbn. now destruct s.
  - unfold is_finite, is_nan, is_infinity. rewrite !eqb_spec, abs_spec, Hd.
    now destruct s.
Qed.

Lemma sum_of_zeros {X : Type} (l : list X) : sum (map (fun _ => 0) l) = 0.
Proof.
  unfold sum. induction l as [| x l IH]; [reflexivity | exact IH].
Qed.

End Binary64Facts.

(** ** Comprehensions *)

Section Comprehensions.

Context {X Y : Type}.

Lemma comprehension_map {W : Type} (f : X -> result Y) (g : W -> X) (l : list W) :
  comprehension f (map g l) = comprehension (fun w => f (g w)) l.
Proof.
  induction l as [| w l IH]; [reflexivity | ].
  cbn. now rewrite IH.
Qed.

Lemma comprehension_ext_in (f f' : X -> result Y) (l : list X) :
  (forall x, In x l -> f x = f' x) ->
  comprehension f l = comprehension f' l.
Proof.
  induction l as [| x l IH]; intro Hext; [reflexivity | ].
  cbn. rewrite (Hext x (or_introl eq_refl)), IH; [reflexivity | ].
  intros x' Hx'. apply Hext. now right.
Qed.

Lemma comprehension_ok (f : X -> result Y) (g : X -> Y) (l : list X) :
  (forall x, In x l -> f x = Ok (g x)) ->
  comprehension f l = Ok (map g l).
Proof.
  induction l as [| x l IH]; intro Hok; [reflexivity | ].
  cbn. rewrite (Hok x (or_introl eq_refl)), IH; [reflexivity | ].
  intros x' Hx'. apply Hok. now right.
Qed.

(** An exception of a comprehension is an exception of one of its elements. *)
Lemma comprehension_raise (f : X -> result Y) (l : list X) (e : PyExc) :
  comprehension f l = Raise e -> exists x, In x l /\ f x = Raise e.
Proof.
  induction l as [| x l IH]; intro Hraise; [discriminate Hraise | ].
  cbn in Hraise. destruct (f x) as [y | e'] eqn:Hx.
  - cbn in Hraise. destruct (comprehension f l) as [ys | e'']; [discriminate Hraise | ].
    cbn in Hraise. injection Hraise as ->.
    destruct (IH eq_refl) as [x' [Hin Hx']]. exists x'. split; [now right | exact Hx'].
  - cbn in Hraise. injection Hraise as ->. exists x. split; [now left | exact Hx].
Qed.

End Comprehensions.

(** ** Interpolation claims, in binary64 *)

Section Binary64Claims.

Import InverseDistanceWeighting Binary64Facts.
Open Scope float_scope.

Let agent := InterpolationAgent.self float.

Lemma in_range_distance (a a_i : float) :
  in_range a a_i = true ->
  (sq <~ f_pow2 (f_sub a a_i) ;; f_sqrt sq) = Ok (sqrt ((a - a_i) * (a - a_i))).
Proof.
  unfold in_range. cbv zeta. intro Hrange.
  apply andb_prop in Hrange as [Hfits _]. apply negb_true_iff in Hfits.
  cbn. unfold Binary64.pow2. rewrite Hfits. cbn.
  unfold Binary64.math_sqrt. now rewrite square_not_negative.
Qed.

Lemma in_range_weight (a a_i : float) :
  in_range a a_i = true ->
  f_truediv f_one (f_add (sqrt ((a - a_i) * (a - a_i))) f_1e_6) = weight a a_i.
Proof.
  unfold in_range. cbv zeta. intro Hrange.
  apply andb_prop in Hrange as [_ Hback]. apply Leibniz.eqb_spec in Hback.
  unfold weight. cbn. now rewrite Hback.
Qed.

(** On angles in range, [_interpolate] is the formula of the specification. *)
Lemma interpolate_in_range (position a : float) (points : list (float * float)) :
  forallb (in_range a) (map fst points) = true ->
  InterpolationAgent._interpolate position a (map snd points) (map fst points) =
  estimate a points.
Proof.
  intro Hrange. rewrite forallb_forall in Hrange.
  unfold InterpolationAgent._interpolate, estimate.
  rewrite (comprehension_ok _
             (fun a_i => sqrt ((a - a_i) * (a - a_i))) (map fst points))
    by (intros a_i Hin; apply in_range_distance, Hrange, Hin).
  cbn [rbind]. rewrite comprehension_map.
  rewrite (comprehension_ext_in _ (weight a) (map fst points))
    by (intros a_i Hin; apply in_range_weight, Hrange, Hin).
  reflexivity.
Qed.

Lemma views_of_x_points (m : CalibrationMap float) :
  monitor_x_values m = map snd (x_points m) /\
  theta_values m = map fst (x_points m).
Proof.
  unfold monitor_x_values, theta_values, x_points.
  rewrite !map_map. split; reflexivity.
Qed.

Lemma views_of_y_points (m : CalibrationMap float) :
  monitor_y_values m = map snd (y_points m) /\
  phi_values m = map fst (y_points m).
Proof.
  unfold monitor_y_values, phi_values, y_points.
  rewrite !map_map. split; reflexivity.
Qed.

(** C2 (amended): in binary64, for every agent (its calibration map empty
    or not) and every query whose angles are in range of the calibration
    angles, [_interpolate] gives what the formula
    [(sum_i w_i * c_i) / (sum_i w_i)] with [w_i = 1 / (|a - a_i| + 1e-6)]
    gives in float arithmetic, and [calculate_point_of_regard] applies it
    once with [theta] against [(monitor_x_values, theta_values)] for
    [screen_x] and once with [phi] against [(monitor_y_values, phi_values)]
    for [screen_y]. *)
Theorem point_of_regard_is_inverse_distance_weighting
    (s : agent) (head_x head_y theta phi : float) :
  let m := InterpolationAgent.calibration_map s in
  forallb (in_range theta) (theta_values m) = true ->
  forallb (in_range phi) (phi_values m) = true ->
  InterpolationAgent._interpolate head_x theta
    (monitor_x_values m) (theta_values m) = estimate theta (x_points m) /\
  InterpolationAgent._interpolate head_y phi
    (monitor_y_values m) (phi_values m) = estimate phi (y_points m) /\
  InterpolationAgent.calculate_point_of_regard [head_x; head_y; theta; phi] s =
  (screen_x <~ estimate theta (x_points m) ;;
   screen_y <~ estimate phi (y_points m) ;;
   Ok (screen_x, screen_y),
   s).
Proof.
  cbv zeta. intros Hx Hy.
  set (m := InterpolationAgent.calibration_map s) in *.
  destruct (views_of_x_points m) as [Hcx Hax].
  destruct (views_of_y_points m) as [Hcy Hay].
  assert (Ix : InterpolationAgent._interpolate head_x theta
                 (monitor_x_values m) (theta_values m) =
               estimate theta (x_points m)).
  { rewrite Hcx, Hax. apply interpolate_in_range. now rewrite <- Hax. }
  assert (Iy : InterpolationAgent._interpolate head_y phi
                 (monitor_y_values m) (phi_values m) =
               estimate phi (y_points m)).
  { rewrite Hcy, Hay. apply interpolate_in_range. now rewrite <- Hay. }
  split; [exact Ix | split; [exact Iy | ]].
  rewrite calculate_point_of_regard_eq. fold m. now rewrite Ix, Iy.
Qed.



(** With two calibration points, their order does not matter. *)
Lemma interpolate_swap (position a c_1 c_2 a_1 a_2 : float) :
  InterpolationAgent._interpolate position a [c_1; c_2] [a_1; a_2] =
  InterpolationAgent._interpolate position a [c_2; c_1] [a_2; a_1].
Proof.
  unfold InterpolationAgent._interpolate. cbn [comprehension].
  destruct (distance_outcome a a_1) as [-> | ->],
           (distance_outcome a a_2) as [-> | ->];
    cbn [rbind comprehension]; try reflexivity.
  set (d_1 := sqrt ((a - a_1) * (a - a_1))).
  set (d_2 := sqrt ((a - a_2) * (a - a_2))).
  destruct (weight_outcome d_1) as [-> | ->],
           (weight_outcome d_2) as [-> | ->];
    cbn [rbind]; try reflexivity.
  cbn [combine map].
  rewrite (sum_of_two (f_mul (1 / (d_1 + Binary64.lit_1e_6)) c_1)).
  rewrite (sum_of_two (1 / (d_1 + Binary64.lit_1e_6))).
  reflexivity.
Qed.

Lemma Permutation_at_most_two {X : Type} (l l' : list X) :
  Permutation l l' ->
  (List.length l <= 2)%nat ->
  l' = l \/ exists x y, l = [x; y] /\ l' = [y; x].
Proof.
  intros Hperm Hlen.
  destruct l as [| x [| y [| z l]]].
  - apply Permutation_nil in Hperm. now left.
  - apply Permutation_length_1_inv in Hperm. now left.
  - apply Permutation_length_2_inv in Hperm as [-> | ->].
    + now left.
    + right. now exists x, y.
  - cbn in Hlen. lia.
Qed.

(** C8 (amended): in binary64, two agents whose calibration maps hold the
    same samples, at most two of them, in different orders answer every
    query alike: the same point, or the same exception.  (From three samples
    on the order of the float additions shows.) *)
Theorem point_of_regard_invariant_under_reordering
    (s s' : agent) (args : list float) :
  Permutation (samples (InterpolationAgent.calibration_map s))
              (samples (InterpolationAgent.calibration_map s')) ->
  (List.length (samples (InterpolationAgent.calibration_map s)) <= 2)%nat ->
  fst (InterpolationAgent.calculate_point_of_regard args s) =
  fst (InterpolationAgent.calculate_point_of_regard args s').
Proof.
  intros Hperm Hlen.
  destruct args as [| head_x [| head_y [| theta [| phi [| extra rest]]]]];
    try reflexivity.
  rewrite !calculate_point_of_regard_eq. cbn [fst].
  unfold monitor_x_values, theta_values, monitor_y_values, phi_values.
  destruct (Permutation_at_most_two Hperm Hlen) as [-> | [p [q [-> ->]]]];
    [reflexivity | ].
  cbn [map].
  rewrite (interpolate_swap head_x theta
             (sample_monitor_x p) (sample_monitor_x q)
             (sample_theta p) (sample_theta q)).
  rewrite (interpolate_swap head_y phi
             (sample_monitor_y p) (sample_monitor_y q)
             (sample_phi p) (sample_phi q)).
  reflexivity.
Qed.

(** X17: in binary64 the only exceptions [_interpolate] raises are the
    [OverflowError] of a squaring and the [ZeroDivisionError] of a division:
    [math.sqrt] never raises there, its argument being a square. *)
Theorem interpolate_raises_only_overflow_or_zero_division
    (position angle : float) (coordinates angles : list float) (exc : PyExc) :
  InterpolationAgent._interpolate position angle coordinates angles = Raise exc ->
  exc = OverflowError \/ exc = ZeroDivisionError.
Proof.
  unfold InterpolationAgent._interpolate. intro Hraise.
  destruct (comprehension _ angles) as [distances | e] eqn:Hd.
  - cbn [rbind] in Hraise.
    destruct (comprehension _ distances) as [weights | e] eqn:Hw.
    + cbn [rbind] in Hraise. cbn in Hraise. unfold Binary64.truediv in Hraise.
      destruct (PrimFloat.eqb _ _) in Hraise; [ | discriminate Hraise].
      injection Hraise as <-. now right.
    + cbn [rbind] in Hraise. injection Hraise as ->.
      apply comprehension_raise in Hw as [distance [_ Hdist]].
      destruct (weight_outcome distance) as [Hok | Hzero];
        rewrite Hdist in *; [discriminate Hok | ].
      injection Hzero as ->. now right.
  - cbn [rbind] in Hraise. injection Hraise as ->.
    apply comprehension_raise in Hd as [calib_angle [_ Hdist]].
    destruct (distance_outcome angle calib_angle) as [Hok | Hover];
      rewrite Hdist in *; [discriminate Hok | ].
    injection Hover as ->. now left.
Qed.

(** X18: in binary64 an empty calibration is not the only way to a
    [ZeroDivisionError]: for an infinite query angle and finite calibration
    angles, however many, every distance is infinite, every weight is [0.0],
    and the final division by the sum of the weights raises. *)
Theorem infinite_query_angle_raises_ZeroDivisionError
    (position angle : float) (coordinates angles : list float) :
  is_infinity angle = true ->
  forallb is_finite angles = true ->
  InterpolationAgent._interpolate position angle coordinates angles =
  Raise ZeroDivisionError.
Proof.
  intros Hinf Hfinite. rewrite forallb_forall in Hfinite.
  unfold InterpolationAgent._interpolate.
  rewrite (comprehension_ok _ (fun _ => infinity) angles).
  - cbn [rbind]. rewrite comprehension_map.
    rewrite (comprehension_ok _ (fun _ => 0) angles) by reflexivity.
    cbn [rbind]. rewrite sum_of_zeros. reflexivity.
  - intros a_i Hin.
    destruct (@infinite_difference angle a_i Hinf (Hfinite a_i Hin))
      as [Hsquare Hnot_finite].
    cbn. unfold Binary64.pow2. rewrite Hnot_finite, Hsquare. reflexivity.
Qed.

End Binary64Claims.

(** ** The claims on sample inputs, in binary64 *)

Module Binary64Examples.

Import Samples MoreSamples InverseDistanceWeighting.
Open Scope float_scope.

Lemma point_of_regard_is_inverse_distance_weighting_witness :
  forallb (in_range f0_2)
    (theta_values (InterpolationAgent.calibration_map calibrated)) = true /\
  forallb (in_range f0_2)
    (phi_values (InterpolationAgent.calibration_map calibrated)) = true /\
  estimate f0_2 (x_points (InterpolationAgent.calibration_map calibrated)) = Ok 300 /\
  InterpolationAgent.calculate_point_of_regard [0; 0; f0_2; f0_2] calibrated =
  (Ok (300, 300), calibrated).
Proof.
  split; [reflexivity | split; [reflexivity | split; [reflexivity | ]]].
  apply (point_of_regard_is_inverse_distance_weighting calibrated 0 0 f0_2 f0_2);
    reflexivity.
Defined.

(** Where the range ends, for a calibration angle of [0]: the largest float
    below [2^512] is in range, [2^512] is not, and a difference too small
    for its square is in range all the same. *)
Example in_range_boundary :
  in_range 0x1.fffffffffffffp+511 0 = true /\
  in_range 0x1p+512 0 = false /\
  in_range 0x1p-600 0 = true.
Proof. repeat split; reflexivity. Qed.


Lemma point_of_regard_invariant_under_reordering_witness :
  let a := sample 100 100 f0_1 f0_1 in
  let b := sample 500 500 f0_3 f0_3 in
  Permutation (samples (InterpolationAgent.calibration_map (agent_of [a; b])))
              (samples (InterpolationAgent.calibration_map (agent_of [b; a]))) /\
  (List.length (samples (InterpolationAgent.calibration_map (agent_of [a; b]))) <= 2)%nat /\
  fst (InterpolationAgent.calculate_point_of_regard [0; 0; f0_1; f0_3]
         (agent_of [a; b])) =
  fst (InterpolationAgent.calculate_point_of_regard [0; 0; f0_1; f0_3]
         (agent_of [b; a])).
Proof.
  cbv zeta. split; [apply perm_swap | split; [apply le_n | ]].
  apply (point_of_regard_invariant_under_reordering
           (agent_of [sample 100 100 f0_1 f0_1; sample 500 500 f0_3 f0_3])
           (agent_of [sample 500 500 f0_3 f0_3; sample 100 100 f0_1 f0_1])).
  - apply perm_swap.
  - apply le_n.
Defined.

Lemma infinite_query_angle_raises_ZeroDivisionError_witness :
  is_infinity infinity = true /\
  forallb is_finite [f0_1; f0_3] = true /\
  InterpolationAgent._interpolate 0 infinity [100; 500] [f0_1; f0_3] =
  Raise ZeroDivisionError.
Proof.
  split; [reflexivity | split; [reflexivity | ]].
  apply (@infinite_query_angle_raises_ZeroDivisionError 0 infinity [100; 500]
           [f0_1; f0_3]);
    reflexivity.
Defined.

Lemma interpolate_raises_only_overflow_or_zero_division_witness :
  InterpolationAgent._interpolate 0 f1e200 [100] [f0_1] = Raise OverflowError /\
  (OverflowError = OverflowError \/ OverflowError = ZeroDivisionError).
Proof.
  split; [reflexivity | ].
  apply (@interpolate_raises_only_overflow_or_zero_division
           0 f1e200 [100] [f0_1] OverflowError).
  reflexivity.
Defined.

(** The scenario of the specification comes out exactly. *)
Example midpoint_scenario_in_floats :
  fst (InterpolationAgent.calculate_point_of_regard [0; 0; f0_2; f0_2]
         (agent_of [sample 100 100 f0_1 f0_1; sample 500 500 f0_3 f0_3])) =
  Ok (300, 300).
Proof. reflexivity. Qed.

(** C2 (as stated) fails: not every query angle gets a value.  The square of
    a difference of [1e200] is out of the range of a float and [**] raises
    [OverflowError]. *)
Lemma far_query_angle_overflows :
  InterpolationAgent._interpolate 0 f1e200 [100] [f0_1] = Raise OverflowError /\
  fst (InterpolationAgent.calculate_point_of_regard [0; 0; f1e200; f0_2]
         (agent_of [sample 100 100 f0_1 f0_2])) = Raise OverflowError.
Proof. split; reflexivity. Qed.


(** C8 (as stated) fails: float addition is not associative.  The same three
    samples in two orders give [300.00000000000006] and [300] for the same
    query; and with coordinates near the top of the float range one order
    overflows to infinity where the other stays finite. *)
Lemma reordering_changes_the_result :
  let a := sample 100 100 f0_1 f0_1 in
  let b := sample 500 500 f0_3 f0_3 in
  let c := sample 300 300 f0_7 f0_7 in
  let u := sample 0x1.1ccf385ebc8a0p+1023 0 0 0 in
  let v := sample (- 0x1.1ccf385ebc8a0p+1023) 0 0 0 in
  Permutation [a; b; c] [b; c; a] /\
  fst (InterpolationAgent.calculate_point_of_regard [0; 0; f0_2; f0_2]
         (agent_of [a; b; c])) =
    Ok (0x1.2c00000000001p+8, 0x1.2c00000000001p+8) /\
  fst (InterpolationAgent.calculate_point_of_regard [0; 0; f0_2; f0_2]
         (agent_of [b; c; a])) =
    Ok (300, 300) /\
  fst (InterpolationAgent.calculate_point_of_regard [0; 0; f0_2; f0_2]
         (agent_of [a; b; c])) <>
  fst (InterpolationAgent.calculate_point_of_regard [0; 0; f0_2; f0_2]
         (agent_of [b; c; a])) /\
  Permutation [u; u; v] [u; v; u] /\
  fst (InterpolationAgent.calculate_point_of_regard [0; 0; 1; 1]
         (agent_of [u; u; v])) =
    Ok (infinity, 0) /\
  fst (InterpolationAgent.calculate_point_of_regard [0; 0; 1; 1]
         (agent_of [u; v; u])) =
    Ok (0x1.7bbef5d3a60d5p+1021, 0).
Proof.
  cbv zeta. repeat split.
  - apply (Permutation_cons_append [_; _]).
  - intro Heq. apply (f_equal (x_is 300)) in Heq.
    vm_compute in Heq. discriminate Heq.
  - apply perm_skip, perm_swap.
Qed.

End Binary64Examples.

(* ================================================================== *)
(** * Further properties *)

(** ** The interpolation on lists of different lengths, in any arithmetic *)

Section UnequalLengths.

Context {F : Type} `{PyFloat F}.

Lemma comprehension_length {X Y : Type} (f : X -> result Y) (l : list X) (ys : list Y) :
  comprehension f l = Ok ys -> List.length ys = List.length l.
Proof.
  revert ys. induction l as [| x l IH]; intros ys Hys; cbn in Hys.
  - now injection Hys as <-.
  - destruct (f x) as [y | e]; cbn in Hys; [ | discriminate Hys].
    destruct (comprehension f l) as [ys' | e]; cbn in Hys; [ | discriminate Hys].
    injection Hys as <-. cbn. f_equal. now apply IH.
Qed.

Lemma combine_surplus {X Y : Type} (xs : list X) (ys extra : list Y) :
  List.length xs <= List.length ys ->
  combine xs (ys ++ extra) = combine xs ys.
Proof.
  revert ys. induction xs as [| x xs IH]; intros [| y ys] Hlen; cbn in *;
    try reflexivity.
  - inversion Hlen.
  - f_equal. apply IH. now apply le_S_n.
Qed.

(** X5: [_interpolate] pairs weights with coordinates by [zip], so
    coordinates beyond the number of calibration angles are ignored: no
    exception, no effect on the result. *)
Theorem interpolate_ignores_surplus_coordinates
    (position angle : F) (coordinates extra angles : list F) :
  List.length angles <= List.length coordinates ->
  InterpolationAgent._interpolate position angle (coordinates ++ extra) angles =
  InterpolationAgent._interpolate position angle coordinates angles.
Proof.
  intro Hlen. unfold InterpolationAgent._interpolate.
  destruct (comprehension _ angles) as [distances | e] eqn:Hd; [ | reflexivity].
  cbn [rbind].
  destruct (comprehension _ distances) as [weights | e] eqn:Hw; [ | reflexivity].
  cbn [rbind].
  rewrite combine_surplus; [reflexivity | ].
  rewrite (comprehension_length _ _ Hw), (comprehension_length _ _ Hd).
  exact Hlen.
Qed.

End UnequalLengths.

Lemma interpolate_ignores_surplus_coordinates_witness :
  (List.length [Samples.f0_1] <= List.length [100%float])%nat /\
  InterpolationAgent._interpolate 0%float Samples.f0_2
    ([100%float] ++ [500%float]) [Samples.f0_1] =
  InterpolationAgent._interpolate 0%float Samples.f0_2 [100%float] [Samples.f0_1].
Proof.
  split.
  - apply le_n.
  - apply (interpolate_ignores_surplus_coordinates
             0%float Samples.f0_2 [100%float] [500%float] [Samples.f0_1]).
    apply le_n.
Defined.

(** ** The engine's loop and handler, for any calibration agent *)

Section EngineBehaviour.

Context {F A Frame : Type} `{CalibrationAgent F A}.

Let engine := GazeEstimationEngine.self F A Frame.


(** X7: calibrating with a batch in two calls is calibrating with the whole
    batch in one: running [first ++ second] is running [first] and, when
    that returns, [second] on the engine it leaves; an exception that leaves
    the run of [first] is the outcome of the whole. *)
Theorem run_calibration_steps_app
    (first second : list (F * F * Frame)) (s : engine) :
  GazeEstimationEngine.run_calibration_steps (first ++ second) s =
  match GazeEstimationEngine.run_calibration_steps first s with
  | (Ok _, s') => GazeEstimationEngine.run_calibration_steps second s'
  | (Raise e, s') => (Raise e, s')
  end.
Proof.
  revert s. induction first as [| calibration_point rest IH]; intro s.
  - reflexivity.
  - cbn [app]. rewrite !run_calibration_steps_cons.
    destruct (GazeEstimationEngine.guarded_step calibration_point s)
      as [[[] | e] s']; [apply IH | reflexivity].
Qed.

(** A calibration step leaves the predictor and the output alone. *)
Lemma run_single_calibration_step_frame (x y : F) (frame : Frame) (s : engine) :
  let s' := snd (GazeEstimationEngine.run_single_calibration_step x y frame s) in
  GazeEstimationEngine.gaze_net s' = GazeEstimationEngine.gaze_net s /\
  GazeEstimationEngine.stdout s' = GazeEstimationEngine.stdout s.
Proof.
  cbv zeta.
  unfold GazeEstimationEngine.run_single_calibration_step, bind,
    GazeEstimationEngine.predict_gaze_vector.
  destruct (GazeEstimationEngine.gaze_net s frame)
    as [[[[head_x head_y] theta] phi] | exc]; [ | split; reflexivity].
  unfold GazeEstimationEngine.on_cal_agent.
  destruct (calibration_step [x; y; theta; phi] (GazeEstimationEngine.cal_agent s));
    split; reflexivity.
Qed.

Lemma guarded_step_frame (calibration_point : F * F * Frame) (s : engine) :
  let s' := snd (GazeEstimationEngine.guarded_step calibration_point s) in
  GazeEstimationEngine.gaze_net s' = GazeEstimationEngine.gaze_net s /\
  exists lines,
    GazeEstimationEngine.stdout s' = GazeEstimationEngine.stdout s ++ lines /\
    List.length lines <= 1.
Proof.
  cbv zeta. unfold GazeEstimationEngine.guarded_step, try_except.
  pose proof (run_single_calibration_step_frame
                (fst (fst calibration_point)) (snd (fst calibration_point))
                (snd calibration_point) s) as Hframe.
  cbv zeta in Hframe. destruct Hframe as [Hnet Hout].
  destruct (GazeEstimationEngine.run_single_calibration_step _ _ _ s)
    as [[[] | e] s1]; cbn [snd] in *.
  - split; [exact Hnet | ]. exists []. rewrite app_nil_r. split; [exact Hout | ].
    apply le_0_n.
  - destruct (is_Exception e).
    + cbn. split; [exact Hnet | ].
      exists [step_failed calibration_point e]. rewrite Hout.
      split; [reflexivity | apply le_n].
    + cbn. split; [exact Hnet | ]. exists []. rewrite app_nil_r.
      split; [exact Hout | apply le_0_n].
Qed.

(** X8: [run_calibration_steps] keeps the predictor and only adds to the
    output, at most one line for each element of the batch; nothing that
    was printed before is lost. *)
Theorem run_calibration_steps_prints_at_most_one_line_each
    (calibration_data : list (F * F * Frame)) (s : engine) :
  let s' := snd (GazeEstimationEngine.run_calibration_steps calibration_data s) in
  GazeEstimationEngine.gaze_net s' = GazeEstimationEngine.gaze_net s /\
  exists lines,
    GazeEstimationEngine.stdout s' = GazeEstimationEngine.stdout s ++ lines /\
    List.length lines <= List.length calibration_data.
Proof.
  cbv zeta. revert s.
  induction calibration_data as [| calibration_point rest IH]; intro s.
  - split; [reflexivity | ]. exists []. cbn. rewrite app_nil_r.
    split; [reflexivity | apply le_n].
  - rewrite run_calibration_steps_cons.
    destruct (guarded_step_frame calibration_point s)
      as [Hnet1 [lines1 [Hout1 Hlen1]]].
    destruct (GazeEstimationEngine.guarded_step calibration_point s)
      as [[[] | e] s1]; cbn [snd] in *.
    + destruct (IH s1) as [Hnet2 [lines2 [Hout2 Hlen2]]].
      split; [now rewrite Hnet2 | ].
      exists (lines1 ++ lines2).
      rewrite Hout2, Hout1, <- app_assoc. split; [reflexivity | ].
      rewrite length_app. cbn [List.length].
      apply (Nat.add_le_mono _ 1 _ _ Hlen1 Hlen2).
    + split; [exact Hnet1 | ]. exists lines1. split; [exact Hout1 | ].
      cbn [List.length]. now apply Nat.le_trans with 1, le_n_S, le_0_n.
Qed.

(** X9: an exception of the predictor goes to the caller as it is, from a
    calibration step and from a prediction alike: the agent is not called,
    nothing is printed, and the handler of [predict_gaze_position] does not
    apply, even to a [ZeroDivisionError]. *)
Theorem predictor_exception_propagates
    (s : engine) (x y : F) (frame : Frame) (exc : PyExc) :
  GazeEstimationEngine.gaze_net s frame = Raise exc ->
  GazeEstimationEngine.run_single_calibration_step x y frame s = (Raise exc, s) /\
  GazeEstimationEngine.predict_gaze_position frame s = (Raise exc, s).
Proof.
  intro Hnet.
  unfold GazeEstimationEngine.run_single_calibration_step,
    GazeEstimationEngine.predict_gaze_position, bind,
    GazeEstimationEngine.predict_gaze_vector.
  rewrite Hnet. split; reflexivity.
Qed.

(** X10: [predict_gaze_position] swallows [ZeroDivisionError] and its
    subclasses only: any other exception of the agent's
    [calculate_point_of_regard] reaches the caller, nothing is printed, and
    what the agent did to itself stays done. *)
Theorem predict_gaze_position_lets_other_exceptions_through
    (s : engine) (image : Frame) (head_x head_y theta phi : F)
    (exc : PyExc) (a' : A) :
  GazeEstimationEngine.gaze_net s image = Ok (head_x, head_y, theta, phi) ->
  calculate_point_of_regard [theta; phi] (GazeEstimationEngine.cal_agent s) =
    (Raise exc, a') ->
  is_ZeroDivisionError exc = false ->
  GazeEstimationEngine.predict_gaze_position image s =
  (Raise exc,
   {| GazeEstimationEngine.gaze_net := GazeEstimationEngine.gaze_net s;
      GazeEstimationEngine.cal_agent := a';
      GazeEstimationEngine.stdout := GazeEstimationEngine.stdout s |}).
Proof.
  intros Hnet Hagent Hexc.
  unfold GazeEstimationEngine.predict_gaze_position, bind at 1.
  unfold GazeEstimationEngine.predict_gaze_vector. rewrite Hnet.
  unfold try_except, bind, GazeEstimationEngine.on_cal_agent.
  rewrite Hagent, Hexc. reflexivity.
Qed.

(** X11: when the agent answers, [predict_gaze_position] returns the agent's
    two coordinates and prints nothing. *)
Theorem predict_gaze_position_returns_the_agents_point
    (s : engine) (image : Frame) (head_x head_y theta phi : F)
    (screen_x screen_y : F) (a' : A) :
  GazeEstimationEngine.gaze_net s image = Ok (head_x, head_y, theta, phi) ->
  calculate_point_of_regard [theta; phi] (GazeEstimationEngine.cal_agent s) =
    (Ok (screen_x, screen_y), a') ->
  GazeEstimationEngine.predict_gaze_position image s =
  (Ok (Some screen_x, Some screen_y),
   {| GazeEstimationEngine.gaze_net := GazeEstimationEngine.gaze_net s;
      GazeEstimationEngine.cal_agent := a';
      GazeEstimationEngine.stdout := GazeEstimationEngine.stdout s |}).
Proof.
  intros Hnet Hagent.
  unfold GazeEstimationEngine.predict_gaze_position, bind at 1.
  unfold GazeEstimationEngine.predict_gaze_vector. rewrite Hnet.
  unfold try_except, bind, GazeEstimationEngine.on_cal_agent.
  rewrite Hagent. reflexivity.
Qed.

(** Once the predictor has answered, the engine goes on with the angles
    alone. *)
Lemma step_after_predictor
    (s : engine) (x y : F) (frame : Frame) (head_x head_y theta phi : F) :
  GazeEstimationEngine.gaze_net s frame = Ok (head_x, head_y, theta, phi) ->
  GazeEstimationEngine.run_single_calibration_step x y frame s =
  GazeEstimationEngine.on_cal_agent (calibration_step [x; y; theta; phi]) s.
Proof.
  intro Hnet.
  unfold GazeEstimationEngine.run_single_calibration_step, bind,
    GazeEstimationEngine.predict_gaze_vector.
  now rewrite Hnet.
Qed.

Lemma predict_after_predictor
    (s : engine) (image : Frame) (head_x head_y theta phi : F) :
  GazeEstimationEngine.gaze_net s image = Ok (head_x, head_y, theta, phi) ->
  GazeEstimationEngine.predict_gaze_position image s =
  try_except
    ('(screen_x, screen_y) <-
        GazeEstimationEngine.on_cal_agent (calculate_point_of_regard [theta; phi]) ;;
     ret (Some screen_x, Some screen_y))
    is_ZeroDivisionError
    (fun _ => GazeEstimationEngine.print profile_empty ;;; ret (None, None))
    s.
Proof.
  intro Hnet.
  unfold GazeEstimationEngine.predict_gaze_position, bind at 1.
  unfold GazeEstimationEngine.predict_gaze_vector.
  now rewrite Hnet.
Qed.

(** X12: the head position that the predictor reports plays no part in the
    engine: two predictors that report the same angles for a frame give the
    same calibration step and the same prediction on it, whatever head
    positions they report. *)
Theorem engine_ignores_head_position
    (net net' : Frame -> result (F * F * F * F)) (agent : A)
    (out : list (Printed F Frame)) (x y : F) (frame : Frame)
    (head_x head_y head_x' head_y' theta phi : F) :
  net frame = Ok (head_x, head_y, theta, phi) ->
  net' frame = Ok (head_x', head_y', theta, phi) ->
  let s := {| GazeEstimationEngine.gaze_net := net;
              GazeEstimationEngine.cal_agent := agent;
              GazeEstimationEngine.stdout := out |} in
  let s' := {| GazeEstimationEngine.gaze_net := net';
               GazeEstimationEngine.cal_agent := agent;
               GazeEstimationEngine.stdout := out |} in
  let step := GazeEstimationEngine.run_single_calibration_step x y frame in
  let predict := GazeEstimationEngine.predict_gaze_position frame in
  fst (step s) = fst (step s') /\
  GazeEstimationEngine.cal_agent (snd (step s)) =
    GazeEstimationEngine.cal_agent (snd (step s')) /\
  fst (predict s) = fst (predict s') /\
  GazeEstimationEngine.cal_agent (snd (predict s)) =
    GazeEstimationEngine.cal_agent (snd (predict s')) /\
  GazeEstimationEngine.stdout (snd (predict s)) =
    GazeEstimationEngine.stdout (snd (predict s')).
Proof.
  intros Hnet Hnet'. cbv zeta.
  rewrite (step_after_predictor
             {| GazeEstimationEngine.gaze_net := net;
                GazeEstimationEngine.cal_agent := agent;
                GazeEstimationEngine.stdout := out |} x y frame Hnet).
  rewrite (step_after_predictor
             {| GazeEstimationEngine.gaze_net := net';
                GazeEstimationEngine.cal_agent := agent;
                GazeEstimationEngine.stdout := out |} x y frame Hnet').
  rewrite (predict_after_predictor
             {| GazeEstimationEngine.gaze_net := net;
                GazeEstimationEngine.cal_agent := agent;
                GazeEstimationEngine.stdout := out |} frame Hnet).
  rewrite (predict_after_predictor
             {| GazeEstimationEngine.gaze_net := net';
                GazeEstimationEngine.cal_agent := agent;
                GazeEstimationEngine.stdout := out |} frame Hnet').
  unfold try_except, bind, GazeEstimationEngine.on_cal_agent.
  cbn [GazeEstimationEngine.cal_agent GazeEstimationEngine.gaze_net
       GazeEstimationEngine.stdout].
  destruct (calibration_step [x; y; theta; phi] agent) as [rs as'].
  destruct (calculate_point_of_regard [theta; phi] agent) as [[[sx sy] | e] ap].
  - repeat split; reflexivity.
  - destruct (is_ZeroDivisionError e); repeat split; reflexivity.
Qed.

End EngineBehaviour.

Module EngineBehaviourExamples.

Import Samples MoreSamples.
Open Scope float_scope.

(** An interrupted batch: the first entry fails and is printed, the
    interrupt on the second leaves the loop, the third is not reached. *)
Example interrupted_batch :
  GazeEstimationEngine.run_calibration_steps
    [(100, 100, face f0_1 f0_1); (300, 300, no_face); (500, 500, face f0_3 f0_3)]
    (GazeEstimationEngine.__init__ test_net_interrupted InterpolationAgent.__init__) =
  (Raise (BaseOnly "KeyboardInterrupt"),
   {| GazeEstimationEngine.gaze_net := test_net_interrupted;
      GazeEstimationEngine.cal_agent := InterpolationAgent.__init__;
      GazeEstimationEngine.stdout :=
        [step_failed (100, 100, face f0_1 f0_1) TypeError] |}).
Proof. reflexivity. Qed.


Lemma predictor_exception_propagates_witness :
  GazeEstimationEngine.gaze_net fresh no_face = Raise (Other "PredictionError") /\
  GazeEstimationEngine.run_single_calibration_step 100 100 no_face fresh =
    (Raise (Other "PredictionError"), fresh) /\
  GazeEstimationEngine.predict_gaze_position no_face fresh =
    (Raise (Other "PredictionError"), fresh).
Proof.
  split; [reflexivity | ].
  apply (predictor_exception_propagates fresh 100 100 no_face). reflexivity.
Defined.

Lemma predict_gaze_position_lets_other_exceptions_through_witness :
  GazeEstimationEngine.gaze_net fresh (face f0_1 f0_2) = Ok (0, 0, f0_1, f0_2) /\
  calculate_point_of_regard [f0_1; f0_2] (GazeEstimationEngine.cal_agent fresh) =
    (Raise TypeError, InterpolationAgent.__init__) /\
  is_ZeroDivisionError TypeError = false /\
  GazeEstimationEngine.predict_gaze_position (face f0_1 f0_2) fresh =
    (Raise TypeError, fresh).
Proof.
  split; [reflexivity | split; [reflexivity | split; [reflexivity | ]]].
  apply (predict_gaze_position_lets_other_exceptions_through
           fresh (face f0_1 f0_2) (head_x := 0) (head_y := 0)
           (theta := f0_1) (phi := f0_2) (exc := TypeError)
           (a' := InterpolationAgent.__init__)).
  - reflexivity.
  - reflexivity.
  - reflexivity.
Defined.

Lemma predict_gaze_position_returns_the_agents_point_witness :
  let s := GazeEstimationEngine.__init__ test_net calibrated in
  GazeEstimationEngine.gaze_net s (face f0_2 f0_2) = Ok (0, 0, f0_2, f0_2) /\
  AngleOnlyAdapter.calculate_point_of_regard [f0_2; f0_2] calibrated =
    (Ok (300, 300), calibrated) /\
  GazeEstimationEngine.predict_gaze_position (H := AngleOnlyAdapter.agent)
    (face f0_2 f0_2) s =
  (Ok (Some 300, Some 300), s).
Proof.
  cbv zeta. split; [reflexivity | split; [reflexivity | ]].
  apply (predict_gaze_position_returns_the_agents_point
           (H := AngleOnlyAdapter.agent)
           (GazeEstimationEngine.__init__ test_net calibrated) (face f0_2 f0_2)
           (head_x := 0) (head_y := 0) (theta := f0_2) (phi := f0_2)
           (screen_x := 300) (screen_y := 300) (a' := calibrated));
    reflexivity.
Defined.

Lemma engine_ignores_head_position_witness :
  test_net (face f0_2 f0_2) = Ok (0, 0, f0_2, f0_2) /\
  test_net_moved (face f0_2 f0_2) = Ok (1, 2, f0_2, f0_2) /\
  fst (GazeEstimationEngine.predict_gaze_position (H := AngleOnlyAdapter.agent)
         (face f0_2 f0_2) (GazeEstimationEngine.__init__ test_net calibrated)) =
  fst (GazeEstimationEngine.predict_gaze_position (H := AngleOnlyAdapter.agent)
         (face f0_2 f0_2) (GazeEstimationEngine.__init__ test_net_moved calibrated)).
Proof.
  split; [reflexivity | split; [reflexivity | ]].
  apply (engine_ignores_head_position (H := AngleOnlyAdapter.agent)
           test_net test_net_moved calibrated [] 300 300 (face f0_2 f0_2)
           (head_x := 0) (head_y := 0) (head_x' := 1) (head_y' := 2)
           (theta := f0_2) (phi := f0_2));
    reflexivity.
Defined.

End EngineBehaviourExamples.

(** ** Loading a profile into an interpolation agent *)

Section LoadProfile.

Context {F C L Frame : Type} `{ProfileStore F C L}.

Let engine := EngineProfiles.self F (InterpolationAgent.self F) C Frame.

(** X13: a successful [load_profile] replaces the calibration, it does not
    add to it: afterwards the agent holds exactly the map the store
    returned, so no sample calibrated before the load plays a part in later
    queries; the predictor and the printed output are as before and the
    store is as the load left it. *)
Theorem load_profile_replaces_calibration
    (s : engine) (id : Z) (m : CalibrationMap F) (c' : C) :
  store_load_profile id (EngineProfiles.cds s) = (Ok m, c') ->
  EngineProfiles.load_profile id s =
  (Ok tt,
   {| EngineProfiles.engine :=
        {| GazeEstimationEngine.gaze_net :=
             GazeEstimationEngine.gaze_net (EngineProfiles.engine s);
           GazeEstimationEngine.cal_agent :=
             {| InterpolationAgent.calibration_map := m |};
           GazeEstimationEngine.stdout :=
             GazeEstimationEngine.stdout (EngineProfiles.engine s) |};
      EngineProfiles.cds := c' |}).
Proof.
  intro Hload.
  unfold EngineProfiles.load_profile, bind, EngineProfiles.on_cds.
  rewrite Hload. reflexivity.
Qed.

(** X14: when the store raises (an unknown id, say), [load_profile] raises
    the same exception and the assignment is not reached: the agent keeps
    the calibration map it had. *)
Theorem load_profile_failure_keeps_calibration
    (s : engine) (id : Z) (exc : PyExc) (c' : C) :
  store_load_profile id (EngineProfiles.cds s) = (Raise exc, c') ->
  EngineProfiles.load_profile id s =
  (Raise exc,
   {| EngineProfiles.engine := EngineProfiles.engine s;
      EngineProfiles.cds := c' |}).
Proof.
  intro Hload.
  unfold EngineProfiles.load_profile, bind, EngineProfiles.on_cds.
  rewrite Hload. reflexivity.
Qed.

End LoadProfile.

(** ** The endpoint [save_current_profile] *)

Section SaveEndpoint.

Context {F A C L Frame : Type}
        `{HoldsCalibrationMap F A} `{ProfileStore F C L}.

Let resources := @Main.resources F A C Frame.

(** X15: [save_current_profile] answers with the name it was given but
    saves under the fixed name ["profile_name"]: what is left in
    [resources], store included, is the same for every [name], and it is
    what the engine's [save_profile("profile_name")] leaves. *)
Theorem save_current_profile_ignores_name (name name' : string) (r : resources) :
  snd (Main.save_current_profile name r) =
    snd (Main.save_current_profile name' r) /\
  snd (Main.save_current_profile name r) =
    snd (Main.on_gaze_engine (EngineProfiles.save_profile "profile_name") r) /\
  (forall message,
     fst (Main.save_current_profile name r) = Ok message ->
     message = ("Profile '" ++ name ++ "' saved successfully.")%string).
Proof.
  unfold Main.save_current_profile, bind.
  destruct (Main.on_gaze_engine (EngineProfiles.save_profile "profile_name") r)
    as [[[] | e] r'].
  - repeat split. intros message Hmsg. cbn in Hmsg. now injection Hmsg as <-.
  - repeat split. intros message Hmsg. discriminate Hmsg.
Qed.

End SaveEndpoint.

Module ProfileExamples.

Import Samples MoreSamples.
Open Scope float_scope.

Lemma load_profile_replaces_calibration_witness :
  ListStore.load_profile 0 (EngineProfiles.cds with_store) =
    (Ok saved_map, [("home"%string, saved_map)]) /\
  EngineProfiles.load_profile (H0 := ListStore.instance) 0 with_store =
  (Ok tt,
   {| EngineProfiles.engine :=
        GazeEstimationEngine.__init__ test_net
          {| InterpolationAgent.calibration_map := saved_map |};
      EngineProfiles.cds := [("home"%string, saved_map)] |}).
Proof.
  split; [reflexivity | ].
  apply (load_profile_replaces_calibration (H := ListStore.instance)
           with_store 0 (m := saved_map) (c' := [("home"%string, saved_map)])).
  reflexivity.
Defined.

Lemma load_profile_failure_keeps_calibration_witness :
  ListStore.load_profile 7 (EngineProfiles.cds with_store) =
    (Raise (Other "ProfileNotFoundError"), [("home"%string, saved_map)]) /\
  EngineProfiles.load_profile (H0 := ListStore.instance) 7 with_store =
  (Raise (Other "ProfileNotFoundError"), with_store).
Proof.
  split; [reflexivity | ].
  apply (load_profile_failure_keeps_calibration (H := ListStore.instance)
           with_store 7 (exc := Other "ProfileNotFoundError")
           (c' := [("home"%string, saved_map)])).
  reflexivity.
Defined.

(** Saving as ["alice"] on the sample engine: the store gets the agent's map
    under ["profile_name"]. *)
Example save_current_profile_as_alice :
  Main.save_current_profile (H0 := ListStore.instance) "alice" (Some with_store) =
  (Ok "Profile 'alice' saved successfully."%string,
   Some {| EngineProfiles.engine := EngineProfiles.engine with_store;
           EngineProfiles.cds :=
             [("profile_name"%string, InterpolationAgent.calibration_map calibrated);
              ("home"%string, saved_map)] |}).
Proof. reflexivity. Qed.

(** Before start-up there is no engine to save from. *)
Example save_current_profile_before_startup :
  Main.save_current_profile (A := InterpolationAgent.self float)
    (Frame := TestFrame) (H0 := ListStore.instance) "alice" None =
  (Raise (Other "AttributeError"), None).
Proof. reflexivity. Qed.

End ProfileExamples.
